(** * deepmd/entrypoints/compress.py: the model-compression entry point

    [compress] reads two tensors from a frozen model, assembles a training
    configuration, checks the descriptor, writes the control file and runs
    the three stages train, freeze and transfer.  Everything it calls lives
    outside the file, so the embedding is a state-and-error monad over an
    abstract outside world: each foreign call is answered by an environment
    and recorded, with its outcome, in a trace. *)

From Stdlib Require Import ZArith PrimFloat Ascii String.
From stdpp Require Import base option gmap strings list fin_maps.

Set Default Proof Using "Type".
#[local] Set Warnings "-register-all".
#[local] Open Scope Z_scope.

(** ** Python values and exceptions *)

(** The classes of exception the function names or that the interpreter
    raises for the operations it uses.  [except C] is modelled as catching
    class [C] itself; deepmd/utils/errors.py derives nothing from the two
    graph errors. *)
Inductive exn_class : Type :=
| GraphWithoutTensorError
| GraphTooLargeError
| RuntimeError
| AssertionError
| KeyError
| TypeError
| ValueError
| OtherError (name : string).

#[global] Instance exn_class_eq_dec : EqDecision exn_class.
Proof. solve_decision. Defined.

(** An exception object: class, message, and [__cause__] as set by
    [raise ... from e]. *)
Inductive exn : Type :=
| Exn (cls : exn_class) (msg : string) (cause : option exn).

Definition exn_cls (e : exn) : exn_class := let 'Exn c _ _ := e in c.
Definition exn_msg (e : exn) : string := let 'Exn _ m _ := e in m.
Definition exn_cause (e : exn) : option exn := let 'Exn _ _ c := e in c.

Inductive result (A : Type) : Type :=
| Ok (a : A)
| Raise (e : exn).
Arguments Ok {A} a.
Arguments Raise {A} e.

#[global] Instance result_ret : MRet result := λ A a, Ok a.
#[global] Instance result_bind : MBind result := λ A B k r,
  match r with
  | Ok a => k a
  | Raise e => Raise e
  end.

(** The JSON data model as Python holds it: what [json.loads] builds, what
    [normalize] returns and what [json.dump] writes.  A dictionary is a
    finite map on its string keys.  The value of a tensor read from a graph
    is carried in the same type; [compress] never inspects one itself. *)
Inductive pyobj : Type :=
| PyNone
| PyBool (b : bool)
| PyInt (z : Z)
| PyFloat (f : float)
| PyStr (s : string)
| PyList (l : list pyobj)
| PyDict (d : gmap string pyobj).

Definition type_name (o : pyobj) : string :=
  match o with
  | PyNone => "NoneType"
  | PyBool _ => "bool"
  | PyInt _ => "int"
  | PyFloat _ => "float"
  | PyStr _ => "str"
  | PyList _ => "list"
  | PyDict _ => "dict"
  end.

(** [o[k]] for a string key [k]. *)
Definition getitem (o : pyobj) (k : string) : result pyobj :=
  match o with
  | PyDict d =>
      match d !! k with
      | Some v => Ok v
      | None => Raise (Exn KeyError k None)
      end
  | PyList _ =>
      Raise (Exn TypeError "list indices must be integers or slices, not str" None)
  | PyStr _ =>
      Raise (Exn TypeError "string indices must be integers" None)
  | _ =>
      Raise (Exn TypeError ("'" +:+ type_name o +:+ "' object is not subscriptable") None)
  end.

(** [o[k] = v] for a string key [k]; the result is the object after the
    store. *)
Definition setitem (o : pyobj) (k : string) (v : pyobj) : result pyobj :=
  match o with
  | PyDict d => Ok (PyDict (<[k := v]> d))
  | PyList _ =>
      Raise (Exn TypeError "list indices must be integers or slices, not str" None)
  | _ =>
      Raise (Exn TypeError
               ("'" +:+ type_name o +:+ "' object does not support item assignment") None)
  end.

(** [j[k1][k2] = v] and [j[k1][k2][k3] = v].  The inner objects are reached
    by reference and changed in place; the tree built by [json.loads] shares
    nothing, so the change is the same tree with that one entry replaced. *)
Definition assign2 (j : pyobj) (k1 k2 : string) (v : pyobj) : result pyobj :=
  a ← getitem j k1;
  a' ← setitem a k2 v;
  setitem j k1 a'.

Definition assign3 (j : pyobj) (k1 k2 k3 : string) (v : pyobj) : result pyobj :=
  a ← getitem j k1;
  b ← getitem a k2;
  b' ← setitem b k3 v;
  a' ← setitem a k2 b';
  setitem j k1 a'.

(** [o == s] for a string [s]: values of another type are unequal to it. *)
Definition py_eq_str (o : pyobj) (s : string) : bool :=
  match o with
  | PyStr s' => bool_decide (s' = s)
  | _ => false
  end.

(** [o is False]: only the boolean [False] itself. *)
Definition is_False (o : pyobj) : bool :=
  match o with
  | PyBool false => true
  | _ => false
  end.

(** ** The outside world *)

Section Compress.

(** [W] is the state of everything outside the function (file system,
    TensorFlow graph, logger), [handle] the file object [open] returns,
    [dtype] the type of [GLOBAL_TF_FLOAT_PRECISION]. *)
Context {W handle dtype : Type}.

(** The foreign calls of compress.py, with the arguments it passes. *)
Inductive call : Type :=
| get_tensor_by_name (model_file tensor_name : string)
| tf_constant (value : pyobj) (name : string) (dt : dtype)
| normalize (data : pyobj)
| log_info (msg : string)
| open_ (file mode : string)
| json_dump (obj : pyobj) (fp : handle) (indent : Z)
| close (fp : handle)
| train (INPUT : string) (init_model restart : option string)
        (output mpi_log : string) (log_level : Z) (log_path : option string)
        (is_compress : bool)
| freeze (checkpoint_folder output : string) (node_names : option string)
| transfer (old_model raw_model output : string).

Definition ret (c : call) : Type :=
  match c with
  | get_tensor_by_name _ _ => pyobj
  | normalize _ => pyobj
  | open_ _ _ => handle
  | _ => unit
  end.

(** What the outside answers.  [run] may change the world and may raise
    anything; the other fields are the pure built-ins and the constant the
    function imports. *)
Record Env : Type := {
  run : ∀ c : call, W → result (ret c) * W;
  json_loads : string → result pyobj;
  py_int : string → option Z;
  format_f : float → string;
  GLOBAL_TF_FLOAT_PRECISION : dtype;
}.

(** One entry of the trace: a foreign call with its outcome, or an
    exception raised by a statement of [compress] itself (a failed
    subscript, conversion or [assert]). *)
Inductive event : Type :=
| Called (c : call) (r : result (ret c))
| Raised (e : exn).

Definition ev_raised (ev : event) : option exn :=
  match ev with
  | Called _ (Raise e) => Some e
  | Called _ (Ok _) => None
  | Raised e => Some e
  end.

Definition ev_call (ev : event) : option call :=
  match ev with
  | Called c _ => Some c
  | Raised _ => None
  end.

Record state : Type := State { world : W; trace : list event }.

Definition init (w : W) : state := State w [].

(** ** The monad *)

Definition M (A : Type) : Type := state → result A * state.

#[global] Instance M_ret : MRet M := λ A a s, (Ok a, s).
#[global] Instance M_bind : MBind M := λ A B k m s,
  match m s with
  | (Ok a, s') => k a s'
  | (Raise e, s') => (Raise e, s')
  end.

Variable env : Env.

(** A foreign call: the environment answers, the trace grows. *)
Definition ext (c : call) : M (ret c) := λ s,
  let '(r, w') := run env c (world s) in
  (r, State w' (trace s ++ [Called c r])).

(** An exception leaves the current block without a new trace entry. *)
Definition throw {A : Type} (e : exn) : M A := λ s, (Raise e, s).

(** A statement of [compress] itself: its failure is recorded where it
    arises. *)
Definition lift {A : Type} (r : result A) : M A := λ s,
  match r with
  | Ok a => (Ok a, s)
  | Raise e => (Raise e, State (world s) (trace s ++ [Raised e]))
  end.

(** [try: body  except cls as e: handler e]. *)
Definition try_except {A : Type} (body : M A) (cls : exn_class)
    (handler : exn → M A) : M A := λ s,
  match body s with
  | (Ok a, s') => (Ok a, s')
  | (Raise e, s') =>
      if decide (exn_cls e = cls) then handler e s' else (Raise e, s')
  end.

(** [with open(file, mode) as fp: body fp].  The file is closed when the
    block is left, also by an exception, which then goes on. *)
Definition with_open {A : Type} (file mode : string) (body : handle → M A)
    : M A :=
  fp ← ext (open_ file mode);
  λ s, match body fp s with
       | (Ok a, s') => (_ ← ext (close fp); mret a) s'
       | (Raise e, s') => (_ ← ext (close fp); throw e) s'
       end.

(** [assert cond, msg]. *)
Definition assert (cond : bool) (msg : string) : result unit :=
  if cond then Ok tt else Raise (Exn AssertionError msg None).

(** [json.loads(s)]: a value that is not a string is refused before any
    parsing. *)
Definition loads (s : pyobj) : result pyobj :=
  match s with
  | PyStr s => json_loads env s
  | _ =>
      Raise (Exn TypeError
               ("the JSON object must be str, bytes or bytearray, not "
                  +:+ type_name s) None)
  end.

(** [int(s)] for a string. *)
Definition int (s : string) : result Z :=
  match py_int env s with
  | Some z => Ok z
  | None =>
      Raise (Exn ValueError
               ("invalid literal for int() with base 10: '" +:+ s +:+ "'") None)
  end.

(** ** compress *)

Record compress_args : Type := {
  input : string;
  output : string;
  extrapolate : Z;
  step : float;
  frequency : string;
  checkpoint_folder : string;
  mpi_log : string;
  log_path : option string;
  log_level : Z;
}.

Definition nl : string := String "010"%char EmptyString.

Definition no_script_msg (input : string) : string :=
  "The input frozen model: " +:+ input +:+
  " has no training script or min_nbor_dist information," +:+
  "which is not supported by the model compression program." +:+
  "Please consider using the dp convert-from interface to upgrade the model".

Definition too_large_msg (step : string) : string :=
  "The uniform step size of the tabulation's first table is " +:+ step +:+
  ", " +:+
  "which is too small. This leads to a very large graph size, " +:+
  "exceeding protobuf's limitation (2 GB). You should try to " +:+
  "increase the step size.".

Definition control_file : string := "compress.json".

(** [jdata["model"]["descriptor"][k]]. *)
Definition descriptor (jdata : pyobj) (k : string) : result pyobj :=
  m ← getitem jdata "model";
  d ← getitem m "descriptor";
  getitem d k.

(** Lines 76 to 87: the script is parsed and [model.compress] is filled in,
    one assignment after the other; the right-hand side of the last one is
    evaluated before its target. *)
Definition assemble (a : compress_args) (t_jdata t_min_nbor_dist : pyobj)
    : result pyobj :=
  jdata ← loads t_jdata;
  jdata ← assign2 jdata "model" "compress" (PyDict ∅);
  jdata ← assign3 jdata "model" "compress" "type" (PyStr "se_e2_a");
  jdata ← assign3 jdata "model" "compress" "compress" (PyBool true);
  jdata ← assign3 jdata "model" "compress" "model_file" (PyStr (input a));
  jdata ← assign3 jdata "model" "compress" "min_nbor_dist" t_min_nbor_dist;
  freq ← int (frequency a);
  assign3 jdata "model" "compress" "table_config"
    (PyList [PyInt (extrapolate a); PyFloat (step a);
             PyFloat (10 * step a)%float; PyInt freq]).

Definition descriptor_type_msg : string :=
  "Model compression error: descriptor type must be se_a or se_e2_a!".
Definition resnet_dt_msg : string :=
  "Model compression error: descriptor resnet_dt must be false!".

(** Lines 90 to 96: the two assertions on the normalized script. *)
Definition check_descriptor (jdata : pyobj) : result unit :=
  t ← descriptor jdata "type";
  ok ← (if py_eq_str t "se_a" then Ok true
        else t' ← descriptor jdata "type"; Ok (py_eq_str t' "se_e2_a"));
  _ ← assert ok descriptor_type_msg;
  r ← descriptor jdata "resnet_dt";
  assert (is_False r) resnet_dt_msg.

Definition compress (a : compress_args) : M unit :=
  '(t_jdata, t_min_nbor_dist) ←
    try_except
      (t_jdata ← ext (get_tensor_by_name (input a) "train_attr/training_script");
       t_min_nbor_dist ← ext (get_tensor_by_name (input a) "train_attr/min_nbor_dist");
       mret (t_jdata, t_min_nbor_dist))
      GraphWithoutTensorError
      (λ e, throw (Exn RuntimeError (no_script_msg (input a)) (Some e)));
  _ ← ext (tf_constant t_min_nbor_dist "train_attr/min_nbor_dist"
             (GLOBAL_TF_FLOAT_PRECISION env));
  jdata ← lift (assemble a t_jdata t_min_nbor_dist);
  jdata ← ext (normalize jdata);
  (* check the descriptor info of the input file *)
  _ ← lift (check_descriptor jdata);
  (* stage 1: training or refining the model with tabulation *)
  _ ← ext (log_info (nl +:+ nl));
  _ ← ext (log_info "stage 1: compress the model");
  _ ← with_open control_file "w" (λ fp, ext (json_dump jdata fp 4));
  _ ← try_except
        (ext (train control_file None None control_file (mpi_log a)
                (log_level a) (log_path a) true))
        GraphTooLargeError
        (λ e, throw (Exn RuntimeError (too_large_msg (format_f env (step a)))
                       (Some e)));
  (* stage 2: freeze the model *)
  _ ← ext (log_info (nl +:+ nl));
  _ ← ext (log_info "stage 2: freeze the model");
  _ ← ext (freeze (checkpoint_folder a) (output a) None);
  (* stage 3: transfer the model *)
  _ ← ext (log_info (nl +:+ nl));
  _ ← ext (log_info "stage 3: transfer the model");
  ext (transfer (input a) (output a) (output a)).

(** ** Reading a trace *)

Definition is_get_tensor (c : call) : bool :=
  match c with get_tensor_by_name _ _ => true | _ => false end.
Definition is_normalize (c : call) : bool :=
  match c with normalize _ => true | _ => false end.
Definition is_open (c : call) : bool :=
  match c with open_ _ _ => true | _ => false end.
Definition is_json_dump (c : call) : bool :=
  match c with json_dump _ _ _ => true | _ => false end.
Definition is_train (c : call) : bool :=
  match c with train _ _ _ _ _ _ _ _ => true | _ => false end.
Definition is_freeze (c : call) : bool :=
  match c with freeze _ _ _ => true | _ => false end.
Definition is_transfer (c : call) : bool :=
  match c with transfer _ _ _ => true | _ => false end.
Definition is_stage (c : call) : bool :=
  is_train c || is_freeze c || is_transfer c.

(** The event is a call of the given kind. *)
Definition ev_is (p : call → bool) (ev : event) : bool :=
  match ev_call ev with
  | Some c => p c
  | None => false
  end.

(** The calls of a trace, in order. *)
Definition calls (tr : list event) : list call := omap ev_call tr.

(** What a returning [normalize] call gave back. *)
Definition ev_normalized (ev : event) : option pyobj :=
  match ev with
  | Called c r =>
      match c return result (ret c) → option pyobj with
      | normalize _ => λ r, match r with Ok j => Some j | Raise _ => None end
      | _ => λ _, None
      end r
  | Raised _ => None
  end.

(** The last event of a trace in which an exception arose. *)
Definition last_raised (tr : list event) : option event :=
  last (List.filter (λ ev, bool_decide (is_Some (ev_raised ev))) tr).

(** Every event [q] of the trace has an event [p] at an earlier position. *)
Definition preceded_by (tr : list event) (p q : event → Prop) : Prop :=
  ∀ i ev, tr !! i = Some ev → q ev →
    ∃ j ev', (j < i)%nat ∧ tr !! j = Some ev' ∧ p ev'.

(** The calls of the success path, as the source passes them. *)
Definition read_script (a : compress_args) : call :=
  get_tensor_by_name (input a) "train_attr/training_script".
Definition read_min_nbor_dist (a : compress_args) : call :=
  get_tensor_by_name (input a) "train_attr/min_nbor_dist".
Definition train_call (a : compress_args) : call :=
  train control_file None None control_file (mpi_log a) (log_level a)
    (log_path a) true.
Definition freeze_call (a : compress_args) : call :=
  freeze (checkpoint_folder a) (output a) None.
Definition transfer_call (a : compress_args) : call :=
  transfer (input a) (output a) (output a).
Definition constant_call (a : compress_args) (t_min_nbor_dist : pyobj) : call :=
  tf_constant t_min_nbor_dist "train_attr/min_nbor_dist"
    (GLOBAL_TF_FLOAT_PRECISION env).

(** The exception [int(frequency)] raises on a string that is no integer
    literal. *)
Definition invalid_literal (a : compress_args) : exn :=
  Exn ValueError
    ("invalid literal for int() with base 10: '" +:+ frequency a +:+ "'") None.

(** ** Further readings of a trace *)

Definition is_tf_constant (c : call) : bool :=
  match c with tf_constant _ _ _ => true | _ => false end.
Definition is_log_info (c : call) : bool :=
  match c with log_info _ => true | _ => false end.
Definition is_close (c : call) : bool :=
  match c with close _ => true | _ => false end.

(** The file object a returning [open] call gave back. *)
Definition ev_opened (ev : event) : option handle :=
  match ev with
  | Called c r =>
      match c return result (ret c) → option handle with
      | open_ _ _ => λ r, match r with Ok fp => Some fp | Raise _ => None end
      | _ => λ _, None
      end r
  | Raised _ => None
  end.

(** The messages handed to [log.info], in order. *)
Definition logs (tr : list event) : list string :=
  omap (λ c, match c with log_info msg => Some msg | _ => None end) (calls tr).

(** The six messages of a complete run. *)
Definition stage_logs : list string :=
  [nl +:+ nl; "stage 1: compress the model";
   nl +:+ nl; "stage 2: freeze the model";
   nl +:+ nl; "stage 3: transfer the model"].




End Compress.

(** The [model.compress] section the claims describe, entry by entry. *)
Definition compress_section (a : compress_args) (min_nbor_dist : pyobj)
    (freq : Z) : gmap string pyobj :=
  {[ "type" := PyStr "se_e2_a";
     "compress" := PyBool true;
     "model_file" := PyStr (input a);
     "min_nbor_dist" := min_nbor_dist;
     "table_config" :=
       PyList [PyInt (extrapolate a); PyFloat (step a);
               PyFloat (10 * step a)%float; PyInt freq] ]}.

(** ** A concrete outside world

    Files are a finite map from names to contents and a file object is the
    name it was opened under.  The frozen model either carries the two
    tensors or not, [normalize] returns its argument, and training either
    succeeds or finds the graph too large. *)
Module Example.

Record model : Type := {
  has_tensors : bool;
  script : result pyobj;
  graph_too_large : bool;
}.

Definition files : Type := gmap string string.
Definition no_files : files := ∅.

Definition answer (m : model) (c : @call string string)
    : files → result (ret c) * files :=
  match c return files → result (ret c) * files with
  | get_tensor_by_name _ n => λ w,
      if has_tensors m then
        (Ok (if bool_decide (n = "train_attr/training_script")
             then PyStr "script" else PyFloat 0.5), w)
      else (Raise (Exn GraphWithoutTensorError n None), w)
  | normalize d => λ w, (Ok d, w)
  | open_ f _ => λ w, (Ok f, <[f := ""]> w)
  | json_dump _ fp _ => λ w, (Ok tt, <[fp := "{}"]> w)
  | train _ _ _ _ _ _ _ _ => λ w,
      if graph_too_large m
      then (Raise (Exn GraphTooLargeError "graph" None), w)
      else (Ok tt, w)
  | _ => λ w, (Ok tt, w)
  end.

Definition env (m : model) : @Env files string string := {|
  run := answer m;
  json_loads := λ _, script m;
  py_int := λ s, if bool_decide (s = "-1") then Some (-1)
                 else if bool_decide (s = "100") then Some 100 else None;
  format_f := λ _, "0.250000";
  GLOBAL_TF_FLOAT_PRECISION := "float64";
|}.

Definition model_section (type resnet_dt : pyobj) : gmap string pyobj :=
  {[ "descriptor" := PyDict {[ "type" := type; "resnet_dt" := resnet_dt ]} ]}.

Definition descriptor_of (type resnet_dt : pyobj) : pyobj :=
  PyDict {[ "model" := PyDict (model_section type resnet_dt) ]}.

Definition good_script : pyobj := descriptor_of (PyStr "se_a") (PyBool false).

Definition good : model :=
  {| has_tensors := true; script := Ok good_script; graph_too_large := false |}.
Definition old : model :=
  {| has_tensors := false; script := Ok good_script; graph_too_large := false |}.
Definition large : model :=
  {| has_tensors := true; script := Ok good_script; graph_too_large := true |}.
Definition other_descriptor : model :=
  {| has_tensors := true;
     script := Ok (descriptor_of (PyStr "se_r") (PyBool false));
     graph_too_large := false |}.

Definition args (freq : string) : compress_args := {|
  input := "frozen_model.pb";
  output := "frozen_model_compressed.pb";
  extrapolate := 5;
  step := 0.25%float;
  frequency := freq;
  checkpoint_folder := "model-compression";
  mpi_log := "master";
  log_path := None;
  log_level := 0;
|}.

(** The configuration assembled from such a script. *)
Definition config_of (type resnet_dt : pyobj) (freq : string) (n : Z) : pyobj :=
  PyDict (<["model" :=
              PyDict (<["compress" :=
                          PyDict (compress_section (args freq) (PyFloat 0.5) n)]>
                        (model_section type resnet_dt))]>
            {[ "model" := PyDict (model_section type resnet_dt) ]}).

(** A run from the empty file system. *)
Definition run_of (m : model) (freq : string) : result unit * state :=
  compress (env m) (args freq) (init no_files).

End Example.

(** Further worlds: scripts of other shapes, and a file system on which
    [json.dump] fails. *)
Module Cases.

Import Example.

Definition with_script (s : result pyobj) : model :=
  {| has_tensors := true; script := s; graph_too_large := false |}.

Definition no_model_section : model := with_script (Ok (PyDict ∅)).
Definition list_script : model := with_script (Ok (PyList [])).
Definition no_descriptor : model :=
  with_script (Ok (PyDict {[ "model" := PyDict ∅ ]})).
Definition broken_script : model :=
  with_script (Raise (Exn (OtherError "json.JSONDecodeError")
                        "Expecting value: line 1 column 1 (char 0)" None)).

Definition no_space : exn :=
  Exn (OtherError "OSError") "[Errno 28] No space left on device" None.

Definition full_disk_answer (c : @call string string)
    : files → result (ret c) * files :=
  match c return files → result (ret c) * files with
  | json_dump _ _ _ => λ w, (Raise no_space, w)
  | get_tensor_by_name f n => answer good (get_tensor_by_name f n)
  | normalize d => answer good (normalize d)
  | open_ f m => answer good (open_ f m)
  | tf_constant v n d => answer good (tf_constant v n d)
  | log_info m => answer good (log_info m)
  | close fp => answer good (close fp)
  | train i m r o l ll lp c => answer good (train i m r o l ll lp c)
  | freeze c o n => answer good (freeze c o n)
  | transfer o r out => answer good (transfer o r out)
  end.

Definition full_disk : @Env files string string := {|
  run := full_disk_answer;
  json_loads := json_loads (env good);
  py_int := py_int (env good);
  format_f := format_f (env good);
  GLOBAL_TF_FLOAT_PRECISION := GLOBAL_TF_FLOAT_PRECISION (env good);
|}.

(** The configuration assembled from the script without descriptor. *)
Definition bare_config (freq : string) (n : Z) : pyobj :=
  PyDict {[ "model" :=
              PyDict {[ "compress" :=
                          PyDict (compress_section (args freq) (PyFloat 0.5) n) ]} ]}.

End Cases.

(** * Properties *)

(** ** Dictionaries *)

Lemma py_eq_str_true o s : py_eq_str o s = true ↔ o = PyStr s.
Proof.
  destruct o; simpl; try (split; [discriminate | congruence]).
  rewrite bool_decide_eq_true. split; congruence.
Qed.

Lemma py_eq_str_false o s : py_eq_str o s = false ↔ o ≠ PyStr s.
Proof.
  rewrite <- py_eq_str_true. destruct (py_eq_str o s); split; congruence.
Qed.

Lemma is_False_true o : is_False o = true ↔ o = PyBool false.
Proof.
  destruct o as [|[]| | | | |]; simpl; split; congruence.
Qed.

Lemma getitem_Ok o k v :
  getitem o k = Ok v → ∃ d, o = PyDict d ∧ d !! k = Some v.
Proof.
  destruct o; simpl; try discriminate.
  destruct (d !! k) eqn:E; intros [= <-]; eauto.
Qed.

Lemma setitem_Ok o k v o' :
  setitem o k v = Ok o' → ∃ d, o = PyDict d ∧ o' = PyDict (<[k := v]> d).
Proof. destruct o; simpl; try discriminate. intros [= <-]; eauto. Qed.

(** An assignment two levels down replaces that one entry. *)
Lemma assign3_nested (jd m c : gmap string pyobj) k1 k2 k3 v :
  assign3 (PyDict (<[k1 := PyDict (<[k2 := PyDict c]> m)]> jd)) k1 k2 k3 v
  = Ok (PyDict (<[k1 := PyDict (<[k2 := PyDict (<[k3 := v]> c)]> m)]> jd)).
Proof.
  unfold assign3, mbind, result_bind; simpl. rewrite lookup_insert_eq; simpl.
  rewrite lookup_insert_eq; simpl. by rewrite !insert_insert_eq.
Qed.

Lemma assign2_Ok j k1 k2 v j' :
  assign2 j k1 k2 v = Ok j' →
  ∃ jd m, j = PyDict jd ∧ jd !! k1 = Some (PyDict m)
          ∧ j' = PyDict (<[k1 := PyDict (<[k2 := v]> m)]> jd).
Proof.
  unfold assign2, mbind, result_bind. intros H.
  destruct (getitem j k1) as [x|] eqn:E1; simpl in H; [|discriminate].
  apply getitem_Ok in E1 as (jd & -> & E1).
  destruct (setitem x k2 v) as [x'|] eqn:E2; simpl in H; [|discriminate].
  apply setitem_Ok in E2 as (m & -> & ->). simpl in H.
  injection H as <-. eauto.
Qed.

(** The section as the assignments build it, last entry outermost, is the
    section as listed. *)
Lemma compress_section_built a t n :
  <["table_config" :=
      PyList [PyInt (extrapolate a); PyFloat (step a);
              PyFloat (10 * step a)%float; PyInt n]]>
    (<["min_nbor_dist" := t]>
       (<["model_file" := PyStr (input a)]>
          (<["compress" := PyBool true]>
             (<["type" := PyStr "se_e2_a"]> ∅))))
  = compress_section a t n.
Proof.
  unfold compress_section. apply map_eq; intros k.
  rewrite <- insert_empty, !lookup_insert.
  repeat case_decide; simplify_eq; done.
Qed.

Section Properties.

Context {W handle dtype : Type} (env : @Env W handle dtype).

Implicit Types (a : compress_args) (w : W) (r : result unit).

(** ** The two pure blocks *)

(** When the assembly returns, the script was a string that parsed to a
    dictionary with a dictionary under "model", the frequency was an
    integer literal, and the result is the script with [model.compress]
    set to the listed section. *)
Lemma assemble_Ok a t_jdata t_min cfg :
  assemble env a t_jdata t_min = Ok cfg →
  ∃ src jd m n,
    t_jdata = PyStr src ∧ json_loads env src = Ok (PyDict jd)
    ∧ jd !! "model" = Some (PyDict m)
    ∧ py_int env (frequency a) = Some n
    ∧ cfg = PyDict (<["model" :=
                        PyDict (<["compress" :=
                                    PyDict (compress_section a t_min n)]> m)]> jd).
Proof.
  unfold assemble, loads, int, mbind, result_bind. intros H.
  destruct t_jdata as [| | | |src| |]; try discriminate.
  destruct (json_loads env src) as [j|] eqn:E; simpl in H; [|discriminate].
  destruct (assign2 j _ _ _) as [j1|] eqn:E1; simpl in H; [|discriminate].
  apply assign2_Ok in E1 as (jd & m & -> & Hm & ->).
  rewrite !assign3_nested in H; simpl in H.
  destruct (py_int env (frequency a)) as [n|] eqn:En; simpl in H; [|discriminate].
  rewrite assign3_nested in H. injection H as <-.
  rewrite compress_section_built. by exists src, jd, m, n.
Qed.

(** With a frequency that is no integer literal the assembly of a
    well-shaped script stops at [int(frequency)]. *)
Lemma assemble_bad_frequency a src jd m t_min :
  json_loads env src = Ok (PyDict jd) →
  jd !! "model" = Some (PyDict m) →
  py_int env (frequency a) = None →
  assemble env a (PyStr src) t_min = Raise (invalid_literal a).
Proof.
  intros Hj Hm Hn. unfold assemble, loads, int, mbind, result_bind.
  rewrite Hj. unfold assign2, mbind, result_bind; simpl. rewrite Hm; simpl.
  rewrite !assign3_nested. by rewrite Hn.
Qed.

(** Without an integer frequency the assembly never returns. *)
Lemma assemble_needs_frequency a t_jdata t_min :
  py_int env (frequency a) = None →
  ∃ e, assemble env a t_jdata t_min = Raise e.
Proof.
  intros Hn. destruct (assemble env a t_jdata t_min) as [cfg|e] eqn:E; [|eauto].
  apply assemble_Ok in E as (? & ? & ? & n & _ & _ & _ & Hn' & _). congruence.
Qed.

Lemma check_descriptor_Ok jdata u :
  check_descriptor jdata = Ok u →
  ∃ t, descriptor jdata "type" = Ok t
       ∧ (t = PyStr "se_a" ∨ t = PyStr "se_e2_a")
       ∧ descriptor jdata "resnet_dt" = Ok (PyBool false).
Proof.
  unfold check_descriptor, assert, mbind, result_bind. intros H.
  destruct (descriptor jdata "type") as [t|] eqn:Et; [|discriminate].
  exists t. split; [done|].
  destruct (descriptor jdata "resnet_dt") as [rd|] eqn:Er.
  - destruct (py_eq_str t "se_a") eqn:E1; [|destruct (py_eq_str t "se_e2_a") eqn:E2];
      try discriminate;
      (destruct (is_False rd) eqn:Ef; [|discriminate]);
      apply is_False_true in Ef as ->;
      (split; [|done]); [left|right]; by apply py_eq_str_true.
  - destruct (py_eq_str t "se_a"); [discriminate|].
    destruct (py_eq_str t "se_e2_a"); discriminate.
Qed.

Lemma check_descriptor_type jdata t :
  descriptor jdata "type" = Ok t → t ≠ PyStr "se_a" → t ≠ PyStr "se_e2_a" →
  check_descriptor jdata = Raise (Exn AssertionError descriptor_type_msg None).
Proof.
  intros Et H1%py_eq_str_false H2%py_eq_str_false.
  unfold check_descriptor, assert, mbind, result_bind.
  by rewrite Et, H1, H2.
Qed.

Lemma check_descriptor_resnet_dt jdata t rd :
  descriptor jdata "type" = Ok t → t = PyStr "se_a" ∨ t = PyStr "se_e2_a" →
  descriptor jdata "resnet_dt" = Ok rd → rd ≠ PyBool false →
  check_descriptor jdata = Raise (Exn AssertionError resnet_dt_msg None).
Proof.
  intros Et Ht Er Hrd.
  assert (is_False rd = false) as Hf.
  { destruct (is_False rd) eqn:E; [|done]. by apply is_False_true in E. }
  unfold check_descriptor, assert, mbind, result_bind. rewrite Et, Er, Hf.
  destruct Ht as [->| ->]; reflexivity.
Qed.

(** ** Running compress

    Every foreign call and every pure block is a point where the run may
    end; the tactic splits on them in program order and leaves each
    possible run with its trace written out. *)

Ltac unfold_compress :=
  unfold compress, with_open, try_except, ext, lift, throw, init,
    mbind, M_bind, mret, M_ret in *; simpl in *.

Ltac step H :=
  match type of H with
  | context [run ?e ?c ?w] =>
      destruct (run e c w) as [[?|?] ?] eqn:?; simpl in H
  | context [assemble ?e ?a ?x ?y] =>
      destruct (assemble e a x y) as [?|?] eqn:?; simpl in H
  | context [check_descriptor ?j] =>
      destruct (check_descriptor j) as [?|?] eqn:?; simpl in H
  | context [decide (?x = ?y)] =>
      destruct (decide (x = y)); simpl in H
  end.

Ltac runs H :=
  unfold_compress; repeat step H; simplify_eq; simpl in *;
  repeat match goal with u : unit |- _ => destruct u end.

(** Case analysis on a position in a written-out trace. *)
Ltac at_position i H :=
  repeat (destruct i as [|i]; simpl in H; simplify_eq; simpl in *;
          try discriminate; simplify_eq).

(** Case analysis on membership in a written-out list. *)
Ltac in_list H :=
  repeat (apply elem_of_cons in H as [->|H]); [..|by apply elem_of_nil in H].

(** C1: on every run that completes without raising, the stage calls of
    the trace are exactly train on the control file with is_compress=True,
    then freeze of checkpoint_folder into output, then transfer, once each
    and in this order, and every call of the run returned. *)
Theorem compress_runs_three_stages a w s' :
  compress env a (init w) = (Ok tt, s') →
  List.filter is_stage (calls (trace s'))
  = [train control_file None None control_file (mpi_log a) (log_level a)
       (log_path a) true;
     freeze (checkpoint_folder a) (output a) None;
     transfer (input a) (output a) (output a)]
  ∧ Forall (λ ev, ev_raised ev = None) (trace s').
Proof.
  intros H. runs H. split; [reflexivity|].
  repeat constructor.
Qed.

(** C5: compress calls freeze at most once and, when it completes, exactly
    once, always as freeze(checkpoint_folder, output, node_names=None); and
    a freeze call stands in the trace only behind the stage-1 train call
    that returned without raising. *)
Theorem compress_freezes_after_training a w r s' :
  compress env a (init w) = (r, s') →
  (List.filter is_freeze (calls (trace s')) = []
   ∨ List.filter is_freeze (calls (trace s'))
     = [freeze (checkpoint_folder a) (output a) None])
  ∧ (r = Ok tt →
     List.filter is_freeze (calls (trace s'))
     = [freeze (checkpoint_folder a) (output a) None])
  ∧ preceded_by (trace s')
      (λ ev, ev = Called (train_call a) (Ok tt))
      (λ ev, ev_is is_freeze ev = true).
Proof.
  intros H. runs H.
  all: split; [first [by left | by right]|].
  all: split; [intros; first [discriminate | reflexivity]|].
  all: intros i ev Hi Hq; at_position i Hi.
  all: exists 9%nat; eexists; split; [lia|split; reflexivity].
Qed.

(** C6: compress calls transfer at most once and, when it completes,
    exactly once, always with old_model the input model and the frozen
    output file as both raw_model and output; and a transfer call stands in
    the trace only behind the freeze call that returned. *)
Theorem compress_transfers_after_freezing a w r s' :
  compress env a (init w) = (r, s') →
  (List.filter is_transfer (calls (trace s')) = []
   ∨ List.filter is_transfer (calls (trace s'))
     = [transfer (input a) (output a) (output a)])
  ∧ (r = Ok tt →
     List.filter is_transfer (calls (trace s'))
     = [transfer (input a) (output a) (output a)])
  ∧ preceded_by (trace s')
      (λ ev, ev = Called (freeze_call a) (Ok tt))
      (λ ev, ev_is is_transfer ev = true).
Proof.
  intros H. runs H.
  all: split; [first [by left | by right]|].
  all: split; [intros; first [discriminate | reflexivity]|].
  all: intros i ev Hi Hq; at_position i Hi.
  all: exists 12%nat; eexists; split; [lia|split; reflexivity].
Qed.

(** C3: whenever normalize is called, its argument is the parsed training
    script of the input model with model.compress set to exactly the
    section type 'se_e2_a', compress True, model_file input, min_nbor_dist
    the tensor read, table_config [extrapolate, step, 10 * step,
    int(frequency)]; before that call only the two tensor reads and
    tf.constant happened, so the assembly precedes every stage. *)
Theorem compress_assembles_config a w r s' i ev cfg :
  compress env a (init w) = (r, s') →
  trace s' !! i = Some ev →
  ev_call ev = Some (normalize cfg) →
  ∃ src jd m t_min n,
    take i (trace s')
    = [Called (read_script a) (Ok (PyStr src));
       Called (read_min_nbor_dist a) (Ok t_min);
       Called (constant_call env a t_min) (Ok tt)]
    ∧ json_loads env src = Ok (PyDict jd)
    ∧ jd !! "model" = Some (PyDict m)
    ∧ py_int env (frequency a) = Some n
    ∧ cfg = PyDict (<["model" :=
                        PyDict (<["compress" :=
                                    PyDict (compress_section a t_min n)]> m)]> jd).
Proof.
  intros H Hi Hev. runs H.
  all: at_position i Hi.
  all: match goal with
       | E : assemble _ _ _ _ = Ok _ |- _ =>
           apply assemble_Ok in E as (src & jd & m & freq & -> & ? & ? & ? & ->)
       end.
  all: eexists src, jd, m, _, freq; split; [reflexivity|done].
Qed.

(** C10: whenever train is called, the call is train(INPUT='compress.json',
    init_model=None, restart=None, output='compress.json', ...,
    is_compress=True), and directly before it 'compress.json' was opened in
    mode 'w' (created or truncated), the object normalize returned was
    dumped to it with indent 4, and the file was closed. *)
Theorem compress_writes_control_file a w r s' i ev :
  compress env a (init w) = (r, s') →
  trace s' !! i = Some ev →
  ev_is is_train ev = true →
  ev_call ev
  = Some (train "compress.json" None None "compress.json" (mpi_log a)
            (log_level a) (log_path a) true)
  ∧ ∃ pre cfg jdata fp,
      take i (trace s')
      = pre ++ [Called (open_ "compress.json" "w") (Ok fp);
                Called (json_dump jdata fp 4) (Ok tt);
                Called (close fp) (Ok tt)]
      ∧ Called (normalize cfg) (Ok jdata) ∈ pre.
Proof.
  intros H Hi Hev. runs H.
  all: at_position i Hi.
  all: split; [reflexivity|].
  all: eexists [_; _; _; _; _; _], _, _, _; split; [reflexivity|].
  all: do 3 apply list_elem_of_further; apply list_elem_of_here.
Qed.

(** C8: once normalize has returned the script [jdata], a descriptor type
    other than 'se_a' and 'se_e2_a', or else a resnet_dt that is not False,
    makes compress raise the AssertionError of that check with nothing
    else after the normalize call: no file is opened and no stage is
    called.  And any call made after normalize shows that both assertions
    held. *)
Theorem compress_checks_descriptor a w r s' i ev jdata :
  compress env a (init w) = (r, s') →
  trace s' !! i = Some ev →
  ev_normalized ev = Some jdata →
  (∀ t, descriptor jdata "type" = Ok t →
        t ≠ PyStr "se_a" → t ≠ PyStr "se_e2_a" →
        r = Raise (Exn AssertionError descriptor_type_msg None)
        ∧ drop (S i) (trace s')
          = [Raised (Exn AssertionError descriptor_type_msg None)])
  ∧ (∀ t rd, descriptor jdata "type" = Ok t →
        t = PyStr "se_a" ∨ t = PyStr "se_e2_a" →
        descriptor jdata "resnet_dt" = Ok rd → rd ≠ PyBool false →
        r = Raise (Exn AssertionError resnet_dt_msg None)
        ∧ drop (S i) (trace s')
          = [Raised (Exn AssertionError resnet_dt_msg None)])
  ∧ (∀ ev', ev' ∈ drop (S i) (trace s') → is_Some (ev_call ev') →
        ∃ t, descriptor jdata "type" = Ok t
             ∧ (t = PyStr "se_a" ∨ t = PyStr "se_e2_a")
             ∧ descriptor jdata "resnet_dt" = Ok (PyBool false)).
Proof.
  intros H Hi Hev. runs H.
  all: at_position i Hi.
  all: split; [|split].
  all: try (intros t Ht H1 H2;
            pose proof (check_descriptor_type _ _ Ht H1 H2) as Hc;
            rewrite Hc in *; simplify_eq; split; reflexivity).
  all: try (intros t rd Ht H1 Hr H2;
            pose proof (check_descriptor_resnet_dt _ _ _ Ht H1 Hr H2) as Hc;
            rewrite Hc in *; simplify_eq; split; reflexivity).
  all: intros ev' Hin Hc.
  all: try (eapply check_descriptor_Ok; eassumption).
  all: in_list Hin; by destruct Hc.
Qed.

(** C4: when reading 'train_attr/training_script', or after it
    'train_attr/min_nbor_dist', from the input model raises a
    GraphWithoutTensorError, compress raises the RuntimeError chained from
    it, and the run consists of those reads alone: the world is as the
    failed read left it, no file was opened or written, and none of train,
    freeze and transfer was called. *)
Theorem compress_model_without_script a w e0 w' tr :
  exn_cls e0 = GraphWithoutTensorError →
  (run env (read_script a) w = (Raise e0, w')
   ∧ tr = [Called (read_script a) (Raise e0)])
  ∨ (∃ t w1,
       run env (read_script a) w = (Ok t, w1)
       ∧ run env (read_min_nbor_dist a) w1 = (Raise e0, w')
       ∧ tr = [Called (read_script a) (Ok t);
               Called (read_min_nbor_dist a) (Raise e0)]) →
  compress env a (init w)
  = (Raise (Exn RuntimeError (no_script_msg (input a)) (Some e0)),
     State w' tr)
  ∧ Forall (λ ev, ev_is is_get_tensor ev = true) tr
  ∧ List.filter (λ c, is_open c || is_json_dump c || is_stage c) (calls tr)
    = [].
Proof.
  intros Hcls [[H1 ->]|(t & w1 & H1 & H2 & ->)].
  all: unfold read_script, read_min_nbor_dist in *.
  all: unfold_compress; rewrite H1; simpl; try (rewrite H2; simpl).
  all: rewrite decide_True by done.
  all: split; [reflexivity|split; [repeat constructor|reflexivity]].
Qed.

(** C2: compress translates exactly two exceptions.  A
    GraphWithoutTensorError raised by a tensor read leaves compress as the
    RuntimeError chained from it, a GraphTooLargeError raised by the train
    call as the RuntimeError chained from it whose message carries the
    formatted step; the only tensor reads are the two named tensors of the
    input model.  Whatever else compress raises is the exception of the
    last raising event of its trace, unchanged. *)
Theorem compress_translates_two_errors a w r s' :
  compress env a (init w) = (r, s') →
  (∀ ev e0,
     ev ∈ trace s' → ev_is is_get_tensor ev = true →
     ev_raised ev = Some e0 → exn_cls e0 = GraphWithoutTensorError →
     r = Raise (Exn RuntimeError (no_script_msg (input a)) (Some e0)))
  ∧ (∀ ev e0,
       ev ∈ trace s' → ev_is is_train ev = true →
       ev_raised ev = Some e0 → exn_cls e0 = GraphTooLargeError →
       r = Raise (Exn RuntimeError (too_large_msg (format_f env (step a)))
                    (Some e0)))
  ∧ (∀ c, c ∈ calls (trace s') → is_get_tensor c = true →
          c = get_tensor_by_name (input a) "train_attr/training_script"
          ∨ c = get_tensor_by_name (input a) "train_attr/min_nbor_dist")
  ∧ (∀ e, r = Raise e →
       ∃ ev e0,
         last_raised (trace s') = Some ev ∧ ev_raised ev = Some e0
         ∧ (e = e0
            ∨ ev_is is_get_tensor ev = true
              ∧ exn_cls e0 = GraphWithoutTensorError
            ∨ ev_is is_train ev = true
              ∧ exn_cls e0 = GraphTooLargeError)).
Proof.
  intros H. runs H.
  all: split; [intros evx exx Hin Hk Hr Hc; in_list Hin; simpl in *;
               simplify_eq; done|].
  all: split; [intros evx exx Hin Hk Hr Hc; in_list Hin; simpl in *;
               simplify_eq; done|].
  all: split; [intros cx Hin Hk; in_list Hin; simpl in *;
               first [discriminate | by left | by right]|].
  all: intros exx He; simplify_eq.
  all: eexists _, _; split; [reflexivity|split; [reflexivity|]].
  all: first [by left | right; left; by split | right; right; by split].
Qed.

(** C9, amended: with a frequency that is no integer literal compress
    never completes and calls neither normalize nor open nor any stage; and
    when both tensors are read, tf.constant returns and the script parses
    to a dictionary with a dictionary under 'model', it raises the
    ValueError of int(frequency) itself, unchained, right after the
    tf.constant call. *)
Theorem compress_rejects_bad_frequency a w :
  py_int env (frequency a) = None →
  (∀ r s',
     compress env a (init w) = (r, s') →
     (∃ e, r = Raise e)
     ∧ List.filter (λ c, is_normalize c || is_open c || is_stage c)
         (calls (trace s')) = [])
  ∧ (∀ src jd m t_min w1 w2 w3,
       run env (read_script a) w = (Ok (PyStr src), w1) →
       run env (read_min_nbor_dist a) w1 = (Ok t_min, w2) →
       run env (constant_call env a t_min) w2 = (Ok tt, w3) →
       json_loads env src = Ok (PyDict jd) →
       jd !! "model" = Some (PyDict m) →
       compress env a (init w)
       = (Raise (invalid_literal a),
          State w3 [Called (read_script a) (Ok (PyStr src));
                    Called (read_min_nbor_dist a) (Ok t_min);
                    Called (constant_call env a t_min) (Ok tt);
                    Raised (invalid_literal a)])).
Proof.
  intros Hn. split.
  - intros r s' H. runs H.
    all: try match goal with
         | E : assemble _ _ ?x ?y = Ok _ |- _ =>
             destruct (assemble_needs_frequency _ x y Hn) as [? Hx];
             rewrite Hx in E; discriminate
         end.
    all: split; [eauto|reflexivity].
  - intros src jd m t_min w1 w2 w3 H1 H2 H3 Hj Hm.
    unfold read_script, read_min_nbor_dist, constant_call in *.
    unfold_compress. rewrite H1; simpl. rewrite H2; simpl.
    rewrite H3; simpl.
    by rewrite (assemble_bad_frequency _ _ _ _ _ Hj Hm Hn).
Qed.

(** ** Further properties of compress *)
(** X1: compress returns normally exactly when no event of its run raised:
    it swallows no exception and raises none of its own on a clean run. *)
Theorem compress_returns_iff_nothing_raised a w r s' :
  compress env a (init w) = (r, s') →
  r = Ok tt ↔ Forall (λ ev, ev_raised ev = None) (trace s').
Proof.
  intros H. runs H.
  all: split; [intros Hr; first [discriminate | repeat constructor]|].
  all: intros HF; try reflexivity.
  all: exfalso; repeat (apply Forall_cons in HF as [? HF]); discriminate.
Qed.


(** X3: the only file opened is 'compress.json' in mode 'w', and once
    [open] has returned the next two events are the dump to that file and
    its close, whatever the dump's outcome. *)
Theorem compress_closes_control_file a w r s' i ev fp :
  compress env a (init w) = (r, s') →
  trace s' !! i = Some ev →
  ev_opened ev = Some fp →
  ev_call ev = Some (open_ "compress.json" "w")
  ∧ ∃ jdata rd rc,
      take 2 (drop (S i) (trace s'))
      = [Called (json_dump jdata fp 4) rd; Called (close fp) rc].
Proof.
  intros H Hi Hev. runs H.
  all: at_position i Hi.
  all: split; [reflexivity|]; by eexists _, _, _.
Qed.

(** X4: every run begins by reading 'train_attr/training_script' from the
    input model, and the model is read at most twice: the script, then
    'train_attr/min_nbor_dist'. *)
Theorem compress_reads_script_first a w r s' :
  compress env a (init w) = (r, s') →
  (∃ ev, head (trace s') = Some ev ∧ ev_call ev = Some (read_script a))
  ∧ (List.filter is_get_tensor (calls (trace s')) = [read_script a]
     ∨ List.filter is_get_tensor (calls (trace s'))
       = [read_script a; read_min_nbor_dist a]).
Proof.
  intros H. runs H.
  all: split; [by eexists|]; first [by left | by right].
Qed.

(** ** The assembly and the check, case by case *)

Lemma assemble_not_string a t_jdata t_min :
  (∀ src, t_jdata ≠ PyStr src) →
  ∃ msg, assemble env a t_jdata t_min = Raise (Exn TypeError msg None).
Proof.
  intros Hs. unfold assemble, loads, mbind, result_bind.
  destruct t_jdata; try (by eexists). by destruct (Hs s).
Qed.

Lemma assemble_loads_raises a src t_min e :
  json_loads env src = Raise e →
  assemble env a (PyStr src) t_min = Raise e.
Proof.
  intros Hj. unfold assemble, loads, mbind, result_bind. by rewrite Hj.
Qed.

Lemma assemble_not_dict a src j t_min :
  json_loads env src = Ok j → (∀ d, j ≠ PyDict d) →
  ∃ msg, assemble env a (PyStr src) t_min = Raise (Exn TypeError msg None).
Proof.
  intros Hj Hd. unfold assemble, loads, assign2, mbind, result_bind.
  rewrite Hj. destruct j; try (by eexists). by destruct (Hd d).
Qed.

Lemma assemble_no_model a src d t_min :
  json_loads env src = Ok (PyDict d) → d !! "model" = None →
  assemble env a (PyStr src) t_min = Raise (Exn KeyError "model" None).
Proof.
  intros Hj Hm. unfold assemble, loads, assign2, mbind, result_bind.
  rewrite Hj; simpl. by rewrite Hm.
Qed.

Lemma assemble_model_not_dict a src d mo t_min :
  json_loads env src = Ok (PyDict d) → d !! "model" = Some mo →
  (∀ m, mo ≠ PyDict m) →
  ∃ msg, assemble env a (PyStr src) t_min = Raise (Exn TypeError msg None).
Proof.
  intros Hj Hm Hd. unfold assemble, loads, assign2, mbind, result_bind.
  rewrite Hj; simpl. rewrite Hm.
  destruct mo; try (by eexists). by destruct (Hd d0).
Qed.

(** A failing assembly ends the run where it stands. *)
Lemma compress_assembly_raises a w t_jdata t_min w1 w2 w3 e :
  run env (read_script a) w = (Ok t_jdata, w1) →
  run env (read_min_nbor_dist a) w1 = (Ok t_min, w2) →
  run env (constant_call env a t_min) w2 = (Ok tt, w3) →
  assemble env a t_jdata t_min = Raise e →
  compress env a (init w)
  = (Raise e,
     State w3 [Called (read_script a) (Ok t_jdata);
               Called (read_min_nbor_dist a) (Ok t_min);
               Called (constant_call env a t_min) (Ok tt);
               Raised e]).
Proof.
  intros H1 H2 H3 Ha.
  unfold read_script, read_min_nbor_dist, constant_call in *.
  unfold_compress. rewrite H1; simpl. rewrite H2; simpl. rewrite H3; simpl.
  by rewrite Ha.
Qed.

Lemma descriptor_raises jdata k e :
  descriptor jdata k = Raise e → exn_cls e = KeyError ∨ exn_cls e = TypeError.
Proof.
  unfold descriptor, mbind, result_bind.
  assert (∀ o k' e', getitem o k' = Raise e' →
            exn_cls e' = KeyError ∨ exn_cls e' = TypeError) as Hg.
  { intros o k' e'. destruct o; simpl; try (intros [= <-]; by right).
    destruct (d !! k'); [discriminate|]. intros [= <-]; by left. }
  destruct (getitem jdata "model") as [m|] eqn:E1; [|intros [= <-]; eauto].
  destruct (getitem m "descriptor") as [d|] eqn:E2; [|intros [= <-]; eauto].
  apply Hg.
Qed.

Lemma check_descriptor_no_type jdata e :
  descriptor jdata "type" = Raise e → check_descriptor jdata = Raise e.
Proof.
  intros Ht. unfold check_descriptor, mbind, result_bind. by rewrite Ht.
Qed.

Lemma check_descriptor_no_resnet_dt jdata t e :
  descriptor jdata "type" = Ok t → t = PyStr "se_a" ∨ t = PyStr "se_e2_a" →
  descriptor jdata "resnet_dt" = Raise e → check_descriptor jdata = Raise e.
Proof.
  intros Ht Hk Hr. unfold check_descriptor, assert, mbind, result_bind.
  rewrite Ht, Hr. destruct Hk as [->| ->]; reflexivity.
Qed.

Lemma check_descriptor_passes jdata t :
  descriptor jdata "type" = Ok t → t = PyStr "se_a" ∨ t = PyStr "se_e2_a" →
  descriptor jdata "resnet_dt" = Ok (PyBool false) →
  check_descriptor jdata = Ok tt.
Proof.
  intros Ht Hk Hr. unfold check_descriptor, assert, mbind, result_bind.
  rewrite Ht, Hr. destruct Hk as [->| ->]; reflexivity.
Qed.

(** X5: [tf.constant] is called only directly behind the two returning
    reads, with the tensor the second read gave, the name
    'train_attr/min_nbor_dist' and the global float precision; and whenever
    the second read returns, that call is the next event. *)
Theorem compress_registers_min_nbor_dist a w r s' :
  compress env a (init w) = (r, s') →
  (∀ i ev,
     trace s' !! i = Some ev → ev_is is_tf_constant ev = true →
     ∃ t_jdata t_min,
       take i (trace s')
       = [Called (read_script a) (Ok t_jdata);
          Called (read_min_nbor_dist a) (Ok t_min)]
       ∧ ev_call ev = Some (tf_constant t_min "train_attr/min_nbor_dist"
                              (GLOBAL_TF_FLOAT_PRECISION env)))
  ∧ (∀ ev1, trace s' !! 1%nat = Some ev1 → ev_raised ev1 = None →
       ∃ ev2, trace s' !! 2%nat = Some ev2
              ∧ ev_is is_tf_constant ev2 = true).
Proof.
  intros H. runs H.
  all: split; [intros i ev Hi Hk; at_position i Hi; by eexists _, _|].
  all: intros ev1 H1 Hr; simplify_eq; simpl in *; try discriminate.
  all: by eexists.
Qed.

(** X6: the messages logged are an initial part of the six stage messages,
    all six on a complete run; the control file is opened only behind the
    logged 'stage 1' line, freeze is called only behind 'stage 2' and
    transfer only behind 'stage 3'. *)
Theorem compress_announces_stages a w r s' :
  compress env a (init w) = (r, s') →
  logs (trace s') `prefix_of` stage_logs
  ∧ (r = Ok tt → logs (trace s') = stage_logs)
  ∧ preceded_by (trace s')
      (λ ev, ev = Called (log_info "stage 1: compress the model") (Ok tt))
      (λ ev, ev_is is_open ev = true)
  ∧ preceded_by (trace s')
      (λ ev, ev = Called (log_info "stage 2: freeze the model") (Ok tt))
      (λ ev, ev_is is_freeze ev = true)
  ∧ preceded_by (trace s')
      (λ ev, ev = Called (log_info "stage 3: transfer the model") (Ok tt))
      (λ ev, ev_is is_transfer ev = true).
Proof.
  intros H. runs H.
  all: split; [by eexists|].
  all: split; [intros; first [discriminate | reflexivity]|].
  all: split; [intros i ev Hi Hq; at_position i Hi;
               try (exists 5%nat; eexists; split; [lia|split; reflexivity])|].
  all: split; [intros i ev Hi Hq; at_position i Hi;
               try (exists 11%nat; eexists; split; [lia|split; reflexivity])|].
  all: intros i ev Hi Hq; at_position i Hi.
  all: exists 14%nat; eexists; split; [lia|split; reflexivity].
Qed.

(** X7: the configuration handed to normalize differs from the parsed
    script only under model.compress: every other top-level entry and every
    other entry of the model section is the script's own. *)
Theorem compress_keeps_rest_of_script a w r s' i ev cfg :
  compress env a (init w) = (r, s') →
  trace s' !! i = Some ev →
  ev_call ev = Some (normalize cfg) →
  ∃ src d d' m m',
    head (trace s') = Some (Called (read_script a) (Ok (PyStr src)))
    ∧ json_loads env src = Ok (PyDict d)
    ∧ cfg = PyDict d'
    ∧ d !! "model" = Some (PyDict m)
    ∧ d' !! "model" = Some (PyDict m')
    ∧ (∀ k, k ≠ "model" → d' !! k = d !! k)
    ∧ (∀ k, k ≠ "compress" → m' !! k = m !! k).
Proof.
  intros H Hi Hev. runs H.
  all: at_position i Hi.
  all: match goal with
       | E : assemble _ _ _ _ = Ok _ |- _ =>
           apply assemble_Ok in E as (src & jd & m & freq & -> & ? & ? & ? & ->)
       end.
  all: eexists src, jd, _, m, _; split; [reflexivity|].
  all: split; [done|]; split; [reflexivity|]; split; [done|].
  all: split; [apply lookup_insert_eq|].
  all: split; intros k Hk; by rewrite lookup_insert_ne.
Qed.

(** X8: a training script that parses to a dictionary without 'model'
    makes compress raise KeyError('model') right after [tf.constant]:
    normalize is not called, no file is opened, no stage runs. *)
Theorem compress_script_without_model a w src d t_min w1 w2 w3 :
  run env (read_script a) w = (Ok (PyStr src), w1) →
  run env (read_min_nbor_dist a) w1 = (Ok t_min, w2) →
  run env (constant_call env a t_min) w2 = (Ok tt, w3) →
  json_loads env src = Ok (PyDict d) →
  d !! "model" = None →
  compress env a (init w)
  = (Raise (Exn KeyError "model" None),
     State w3 [Called (read_script a) (Ok (PyStr src));
               Called (read_min_nbor_dist a) (Ok t_min);
               Called (constant_call env a t_min) (Ok tt);
               Raised (Exn KeyError "model" None)]).
Proof.
  intros H1 H2 H3 Hj Hm.
  apply (compress_assembly_raises _ _ _ _ w1 w2 _ _ H1 H2 H3).
  by apply assemble_no_model with d.
Qed.

(** X9: an exception of [json.loads] on the stored script leaves compress
    unchanged, right after [tf.constant]. *)
Theorem compress_script_not_parsed a w src e t_min w1 w2 w3 :
  run env (read_script a) w = (Ok (PyStr src), w1) →
  run env (read_min_nbor_dist a) w1 = (Ok t_min, w2) →
  run env (constant_call env a t_min) w2 = (Ok tt, w3) →
  json_loads env src = Raise e →
  compress env a (init w)
  = (Raise e,
     State w3 [Called (read_script a) (Ok (PyStr src));
               Called (read_min_nbor_dist a) (Ok t_min);
               Called (constant_call env a t_min) (Ok tt);
               Raised e]).
Proof.
  intros H1 H2 H3 Hj.
  apply (compress_assembly_raises _ _ _ _ w1 w2 _ _ H1 H2 H3).
  by apply assemble_loads_raises.
Qed.

(** X10: a stored script that is not a string, or parses to something
    other than a dictionary, or holds something other than a dictionary
    under 'model', makes compress raise a TypeError right after
    [tf.constant]. *)
Theorem compress_script_of_wrong_shape a w t_jdata t_min w1 w2 w3 :
  run env (read_script a) w = (Ok t_jdata, w1) →
  run env (read_min_nbor_dist a) w1 = (Ok t_min, w2) →
  run env (constant_call env a t_min) w2 = (Ok tt, w3) →
  (∀ src, t_jdata ≠ PyStr src)
  ∨ (∃ src j, t_jdata = PyStr src ∧ json_loads env src = Ok j
              ∧ ∀ d, j ≠ PyDict d)
  ∨ (∃ src d mo, t_jdata = PyStr src ∧ json_loads env src = Ok (PyDict d)
                 ∧ d !! "model" = Some mo ∧ ∀ m, mo ≠ PyDict m) →
  ∃ msg,
    compress env a (init w)
    = (Raise (Exn TypeError msg None),
       State w3 [Called (read_script a) (Ok t_jdata);
                 Called (read_min_nbor_dist a) (Ok t_min);
                 Called (constant_call env a t_min) (Ok tt);
                 Raised (Exn TypeError msg None)]).
Proof.
  intros H1 H2 H3 Hshape.
  assert (∃ msg, assemble env a t_jdata t_min = Raise (Exn TypeError msg None))
    as [msg Ha].
  { destruct Hshape as [Hs|[(src & j & -> & Hj & Hd)|(src & d & mo & -> & Hj & Hm & Hd)]].
    - by apply assemble_not_string.
    - by apply assemble_not_dict with j.
    - by apply assemble_model_not_dict with d mo. }
  exists msg. by apply (compress_assembly_raises _ _ _ _ w1 w2 _ _ H1 H2 H3).
Qed.

(** X11: when the normalized script has no model.descriptor.type, or has a
    good type but no resnet_dt, compress raises the KeyError or TypeError of
    that subscript, not an AssertionError, with nothing else behind the
    normalize call. *)
Theorem compress_descriptor_lookup_fails a w r s' i ev jdata :
  compress env a (init w) = (r, s') →
  trace s' !! i = Some ev →
  ev_normalized ev = Some jdata →
  (∀ e, descriptor jdata "type" = Raise e →
        r = Raise e ∧ drop (S i) (trace s') = [Raised e]
        ∧ (exn_cls e = KeyError ∨ exn_cls e = TypeError))
  ∧ (∀ t e, descriptor jdata "type" = Ok t →
        t = PyStr "se_a" ∨ t = PyStr "se_e2_a" →
        descriptor jdata "resnet_dt" = Raise e →
        r = Raise e ∧ drop (S i) (trace s') = [Raised e]
        ∧ (exn_cls e = KeyError ∨ exn_cls e = TypeError)).
Proof.
  intros H Hi Hev. runs H.
  all: at_position i Hi.
  all: split.
  all: try (intros ex Ht;
            pose proof (descriptor_raises _ _ _ Ht) as Hcls;
            pose proof (check_descriptor_no_type _ _ Ht) as Hc;
            rewrite Hc in *; simplify_eq; by repeat split).
  all: intros t ex Ht Hk Hr;
       pose proof (descriptor_raises _ _ _ Hr) as Hcls;
       pose proof (check_descriptor_no_resnet_dt _ _ _ Ht Hk Hr) as Hc;
       rewrite Hc in *; simplify_eq; by repeat split.
Qed.

(** X12: a normalized script whose descriptor type is 'se_a' or 'se_e2_a'
    and whose resnet_dt is False passes the check: the next event is the
    first log call of stage 1; nothing else of the script is checked. *)
Theorem compress_goes_on_after_check a w r s' i ev jdata t :
  compress env a (init w) = (r, s') →
  trace s' !! i = Some ev →
  ev_normalized ev = Some jdata →
  descriptor jdata "type" = Ok t →
  t = PyStr "se_a" ∨ t = PyStr "se_e2_a" →
  descriptor jdata "resnet_dt" = Ok (PyBool false) →
  ∃ ev', trace s' !! S i = Some ev'
         ∧ ev_call ev' = Some (log_info (nl +:+ nl)).
Proof.
  intros H Hi Hev Ht Hk Hr. runs H.
  all: at_position i Hi.
  all: pose proof (check_descriptor_passes _ _ Ht Hk Hr) as Hc.
  all: rewrite Hc in *; simplify_eq.
  all: by eexists.
Qed.

End Properties.

(** * The properties at work in the concrete world *)

Import Example.

Lemma compress_runs_three_stages_witness :
  run_of good "-1" = (Ok tt, (run_of good "-1").2)
  ∧ List.filter is_stage (calls (trace (run_of good "-1").2))
    = [train "compress.json" None None "compress.json" "master" 0 None true;
       freeze "model-compression" "frozen_model_compressed.pb" None;
       transfer "frozen_model.pb" "frozen_model_compressed.pb"
         "frozen_model_compressed.pb"].
Proof.
  assert (run_of good "-1" = (Ok tt, (run_of good "-1").2)) as H
    by (vm_compute; reflexivity).
  split; [exact H|].
  exact (proj1 (compress_runs_three_stages (env good) (args "-1") no_files
                  (run_of good "-1").2 H)).
Defined.

Lemma compress_translates_two_errors_witness :
  run_of large "100" = ((run_of large "100").1, (run_of large "100").2)
  ∧ (run_of large "100").1
    = Raise (Exn RuntimeError (too_large_msg "0.250000")
               (Some (Exn GraphTooLargeError "graph" None))).
Proof.
  split; [apply surjective_pairing|].
  refine (proj1 (proj2 (compress_translates_two_errors (env large) (args "100")
            no_files _ _ (surjective_pairing _)))
          (Called (train_call (args "100"))
             (Raise (Exn GraphTooLargeError "graph" None)))
          (Exn GraphTooLargeError "graph" None) _ eq_refl eq_refl eq_refl).
  vm_compute. do 9 apply list_elem_of_further. apply list_elem_of_here.
Defined.

Lemma compress_model_without_script_witness :
  exn_cls (Exn GraphWithoutTensorError "train_attr/training_script" None)
  = GraphWithoutTensorError
  ∧ run_of old "-1"
    = (Raise (Exn RuntimeError (no_script_msg "frozen_model.pb")
                (Some (Exn GraphWithoutTensorError
                         "train_attr/training_script" None))),
       State no_files
         [Called (read_script (args "-1"))
            (Raise (Exn GraphWithoutTensorError
                      "train_attr/training_script" None))]).
Proof.
  split; [reflexivity|].
  refine (proj1 (compress_model_without_script (env old) (args "-1") no_files
                   (Exn GraphWithoutTensorError "train_attr/training_script" None)
                   no_files _ eq_refl _)).
  left. split; reflexivity.
Defined.

Lemma compress_freezes_after_training_witness :
  run_of good "-1" = (Ok tt, (run_of good "-1").2)
  ∧ List.filter is_freeze (calls (trace (run_of good "-1").2))
    = [freeze "model-compression" "frozen_model_compressed.pb" None].
Proof.
  assert (run_of good "-1" = (Ok tt, (run_of good "-1").2)) as H
    by (vm_compute; reflexivity).
  split; [exact H|].
  exact (proj1 (proj2 (compress_freezes_after_training (env good) (args "-1")
                         no_files (Ok tt) (run_of good "-1").2 H)) eq_refl).
Defined.

Lemma compress_transfers_after_freezing_witness :
  run_of good "-1" = (Ok tt, (run_of good "-1").2)
  ∧ List.filter is_transfer (calls (trace (run_of good "-1").2))
    = [transfer "frozen_model.pb" "frozen_model_compressed.pb"
         "frozen_model_compressed.pb"].
Proof.
  assert (run_of good "-1" = (Ok tt, (run_of good "-1").2)) as H
    by (vm_compute; reflexivity).
  split; [exact H|].
  exact (proj1 (proj2 (compress_transfers_after_freezing (env good) (args "-1")
                         no_files (Ok tt) (run_of good "-1").2 H)) eq_refl).
Defined.

Lemma compress_assembles_config_witness :
  trace (run_of good "-1").2 !! 3%nat
  = Some (Called (normalize (config_of (PyStr "se_a") (PyBool false) "-1" (-1)))
            (Ok (config_of (PyStr "se_a") (PyBool false) "-1" (-1))))
  ∧ ∃ jd m t n,
      jd !! "model" = Some (PyDict m)
      ∧ py_int (env good) "-1" = Some n
      ∧ config_of (PyStr "se_a") (PyBool false) "-1" (-1)
        = PyDict (<["model" :=
                      PyDict (<["compress" :=
                                  PyDict (compress_section (args "-1") t n)]>
                                m)]> jd).
Proof.
  assert (trace (run_of good "-1").2 !! 3%nat
          = Some (Called (normalize (config_of (PyStr "se_a") (PyBool false) "-1" (-1)))
                    (Ok (config_of (PyStr "se_a") (PyBool false) "-1" (-1)))))
    as Hi by (vm_compute; reflexivity).
  split; [exact Hi|].
  destruct (compress_assembles_config (env good) (args "-1") no_files _ _ _ _ _
              (surjective_pairing _) Hi eq_refl)
    as (src & jd & m & t & n & _ & _ & Hm & Hn & Hc).
  exists jd, m, t, n. by repeat split.
Defined.

Lemma compress_checks_descriptor_witness :
  trace (run_of other_descriptor "100").2 !! 3%nat
  = Some (Called (normalize (config_of (PyStr "se_r") (PyBool false) "100" 100))
            (Ok (config_of (PyStr "se_r") (PyBool false) "100" 100)))
  ∧ descriptor (config_of (PyStr "se_r") (PyBool false) "100" 100) "type"
    = Ok (PyStr "se_r")
  ∧ (run_of other_descriptor "100").1
    = Raise (Exn AssertionError descriptor_type_msg None).
Proof.
  assert (trace (run_of other_descriptor "100").2 !! 3%nat
          = Some (Called (normalize (config_of (PyStr "se_r") (PyBool false) "100" 100))
                    (Ok (config_of (PyStr "se_r") (PyBool false) "100" 100))))
    as Hi by (vm_compute; reflexivity).
  assert (descriptor (config_of (PyStr "se_r") (PyBool false) "100" 100) "type"
          = Ok (PyStr "se_r")) as Ht by (vm_compute; reflexivity).
  split; [exact Hi|]. split; [exact Ht|].
  refine (proj1 (proj1 (compress_checks_descriptor (env other_descriptor)
                          (args "100") no_files _ _ _ _ _
                          (surjective_pairing _) Hi eq_refl)
                   (PyStr "se_r") Ht _ _)); discriminate.
Defined.

Lemma compress_rejects_bad_frequency_witness :
  py_int (env good) (frequency (args "abc")) = None
  ∧ run_of good "abc"
    = (Raise (invalid_literal (args "abc")),
       State no_files
         [Called (read_script (args "abc")) (Ok (PyStr "script"));
          Called (read_min_nbor_dist (args "abc")) (Ok (PyFloat 0.5));
          Called (constant_call (env good) (args "abc") (PyFloat 0.5)) (Ok tt);
          Raised (invalid_literal (args "abc"))]).
Proof.
  split; [reflexivity|].
  refine (proj2 (compress_rejects_bad_frequency (env good) (args "abc")
                   no_files eq_refl)
            "script" {[ "model" := PyDict (model_section (PyStr "se_a") (PyBool false)) ]}
            (model_section (PyStr "se_a") (PyBool false))
            (PyFloat 0.5) no_files no_files no_files
            eq_refl eq_refl eq_refl eq_refl _).
  vm_compute; reflexivity.
Defined.

Lemma compress_writes_control_file_witness :
  trace (run_of good "-1").2 !! 9%nat
  = Some (Called (train_call (args "-1")) (Ok tt))
  ∧ ∃ pre cfg jdata fp,
      take 9 (trace (run_of good "-1").2)
      = pre ++ [Called (open_ "compress.json" "w") (Ok fp);
                Called (json_dump jdata fp 4) (Ok tt);
                Called (close fp) (Ok tt)]
      ∧ Called (normalize cfg) (Ok jdata) ∈ pre.
Proof.
  assert (trace (run_of good "-1").2 !! 9%nat
          = Some (Called (train_call (args "-1")) (Ok tt)))
    as Hi by (vm_compute; reflexivity).
  split; [exact Hi|].
  exact (proj2 (compress_writes_control_file (env good) (args "-1") no_files
                  _ _ _ _ (surjective_pairing _) Hi eq_refl)).
Defined.

(** C9 as stated fails: a model without the training script and a
    frequency that is no integer literal give the RuntimeError of the
    tensor read, not a ValueError. *)
Lemma compress_bad_frequency_old_model :
  py_int (env old) (frequency (args "abc")) = None
  ∧ (run_of old "abc").1
    = Raise (Exn RuntimeError (no_script_msg "frozen_model.pb")
               (Some (Exn GraphWithoutTensorError
                        "train_attr/training_script" None)))
  ∧ ¬ ∃ e, (run_of old "abc").1 = Raise e ∧ exn_cls e = ValueError.
Proof.
  assert ((run_of old "abc").1
          = Raise (Exn RuntimeError (no_script_msg "frozen_model.pb")
                     (Some (Exn GraphWithoutTensorError
                              "train_attr/training_script" None)))) as H
    by (vm_compute; reflexivity).
  split; [reflexivity|]. split; [exact H|].
  intros (e & He & Hc). rewrite H in He. injection He as <-. discriminate.
Qed.

(** ** Further properties in the concrete worlds *)

Import Cases.

Lemma compress_returns_iff_nothing_raised_witness :
  (run_of good "-1").1 = Ok tt
  ∧ Forall (λ ev, ev_raised ev = None) (trace (run_of good "-1").2).
Proof.
  assert ((run_of good "-1").1 = Ok tt) as H by (vm_compute; reflexivity).
  split; [exact H|].
  exact (proj1 (compress_returns_iff_nothing_raised (env good) (args "-1")
                  no_files _ _ (surjective_pairing _)) H).
Defined.


Lemma compress_closes_control_file_witness :
  trace (compress full_disk (args "-1") (init no_files)).2 !! 6%nat
  = Some (Called (open_ "compress.json" "w") (Ok "compress.json"))
  ∧ ∃ jdata rd rc,
      take 2 (drop 7 (trace (compress full_disk (args "-1") (init no_files)).2))
      = [Called (json_dump jdata "compress.json" 4) rd;
         Called (close "compress.json") rc].
Proof.
  assert (trace (compress full_disk (args "-1") (init no_files)).2 !! 6%nat
          = Some (Called (open_ "compress.json" "w") (Ok "compress.json")))
    as Hi by (vm_compute; reflexivity).
  split; [exact Hi|].
  exact (proj2 (compress_closes_control_file full_disk (args "-1") no_files
                  _ _ _ _ _ (surjective_pairing _) Hi eq_refl)).
Defined.

Lemma compress_reads_script_first_witness :
  run_of old "-1" = ((run_of old "-1").1, (run_of old "-1").2)
  ∧ (List.filter is_get_tensor (calls (trace (run_of old "-1").2))
     = [read_script (args "-1")]
     ∨ List.filter is_get_tensor (calls (trace (run_of old "-1").2))
       = [read_script (args "-1"); read_min_nbor_dist (args "-1")]).
Proof.
  split; [apply surjective_pairing|].
  exact (proj2 (compress_reads_script_first (env old) (args "-1") no_files
                  _ _ (surjective_pairing _))).
Defined.

Lemma compress_registers_min_nbor_dist_witness :
  trace (run_of good "-1").2 !! 2%nat
  = Some (Called (constant_call (env good) (args "-1") (PyFloat 0.5)) (Ok tt))
  ∧ ∃ t_jdata t_min,
      take 2 (trace (run_of good "-1").2)
      = [Called (read_script (args "-1")) (Ok t_jdata);
         Called (read_min_nbor_dist (args "-1")) (Ok t_min)]
      ∧ Some (constant_call (env good) (args "-1") (PyFloat 0.5))
        = Some (tf_constant t_min "train_attr/min_nbor_dist" "float64").
Proof.
  assert (trace (run_of good "-1").2 !! 2%nat
          = Some (Called (constant_call (env good) (args "-1") (PyFloat 0.5))
                    (Ok tt)))
    as Hi by (vm_compute; reflexivity).
  split; [exact Hi|].
  exact (proj1 (compress_registers_min_nbor_dist (env good) (args "-1")
                  no_files _ _ (surjective_pairing _)) _ _ Hi eq_refl).
Defined.

Lemma compress_announces_stages_witness :
  (run_of good "-1").1 = Ok tt
  ∧ logs (trace (run_of good "-1").2) = stage_logs.
Proof.
  assert ((run_of good "-1").1 = Ok tt) as H by (vm_compute; reflexivity).
  split; [exact H|].
  exact (proj1 (proj2 (compress_announces_stages (env good) (args "-1")
                         no_files _ _ (surjective_pairing _))) H).
Defined.

Lemma compress_keeps_rest_of_script_witness :
  trace (run_of good "-1").2 !! 3%nat
  = Some (Called (normalize (config_of (PyStr "se_a") (PyBool false) "-1" (-1)))
            (Ok (config_of (PyStr "se_a") (PyBool false) "-1" (-1))))
  ∧ ∃ d d' m m' : gmap string pyobj,
      config_of (PyStr "se_a") (PyBool false) "-1" (-1) = PyDict d'
      ∧ d !! "model" = Some (PyDict m)
      ∧ d' !! "model" = Some (PyDict m')
      ∧ (∀ k, k ≠ "model" → d' !! k = d !! k)
      ∧ (∀ k, k ≠ "compress" → m' !! k = m !! k).
Proof.
  assert (trace (run_of good "-1").2 !! 3%nat
          = Some (Called (normalize (config_of (PyStr "se_a") (PyBool false) "-1" (-1)))
                    (Ok (config_of (PyStr "se_a") (PyBool false) "-1" (-1)))))
    as Hi by (vm_compute; reflexivity).
  split; [exact Hi|].
  destruct (compress_keeps_rest_of_script (env good) (args "-1") no_files
              _ _ _ _ _ (surjective_pairing _) Hi eq_refl)
    as (src & d & d' & m & m' & _ & _ & Hc & Hm & Hm' & Hd & Hk).
  exists d, d', m, m'. exact (conj Hc (conj Hm (conj Hm' (conj Hd Hk)))).
Defined.

Lemma compress_script_without_model_witness :
  json_loads (env no_model_section) "script" = Ok (PyDict ∅)
  ∧ (run_of no_model_section "-1").1 = Raise (Exn KeyError "model" None).
Proof.
  split; [reflexivity|].
  unfold run_of.
  rewrite (compress_script_without_model (env no_model_section) (args "-1")
             no_files "script" ∅ (PyFloat 0.5) no_files no_files no_files
             eq_refl eq_refl eq_refl eq_refl eq_refl).
  reflexivity.
Defined.

Lemma compress_script_not_parsed_witness :
  json_loads (env broken_script) "script"
  = Raise (Exn (OtherError "json.JSONDecodeError")
             "Expecting value: line 1 column 1 (char 0)" None)
  ∧ (run_of broken_script "-1").1
    = Raise (Exn (OtherError "json.JSONDecodeError")
               "Expecting value: line 1 column 1 (char 0)" None).
Proof.
  split; [reflexivity|].
  unfold run_of.
  rewrite (compress_script_not_parsed (env broken_script) (args "-1")
             no_files "script" _ (PyFloat 0.5) no_files no_files no_files
             eq_refl eq_refl eq_refl eq_refl).
  reflexivity.
Defined.

Lemma compress_script_of_wrong_shape_witness :
  json_loads (env list_script) "script" = Ok (PyList [])
  ∧ ∃ msg, (run_of list_script "-1").1 = Raise (Exn TypeError msg None).
Proof.
  split; [reflexivity|].
  destruct (compress_script_of_wrong_shape (env list_script) (args "-1")
              no_files (PyStr "script") (PyFloat 0.5) no_files no_files no_files
              eq_refl eq_refl eq_refl) as [msg Hr].
  { right; left. exists "script", (PyList []). by repeat split. }
  exists msg. unfold run_of. by rewrite Hr.
Defined.

Lemma compress_descriptor_lookup_fails_witness :
  trace (run_of no_descriptor "-1").2 !! 3%nat
  = Some (Called (normalize (bare_config "-1" (-1)))
            (Ok (bare_config "-1" (-1))))
  ∧ descriptor (bare_config "-1" (-1)) "type"
    = Raise (Exn KeyError "descriptor" None)
  ∧ (run_of no_descriptor "-1").1 = Raise (Exn KeyError "descriptor" None).
Proof.
  assert (trace (run_of no_descriptor "-1").2 !! 3%nat
          = Some (Called (normalize (bare_config "-1" (-1)))
                    (Ok (bare_config "-1" (-1)))))
    as Hi by (vm_compute; reflexivity).
  assert (descriptor (bare_config "-1" (-1)) "type"
          = Raise (Exn KeyError "descriptor" None)) as Ht
    by (vm_compute; reflexivity).
  split; [exact Hi|]. split; [exact Ht|].
  exact (proj1 (proj1 (compress_descriptor_lookup_fails (env no_descriptor)
                         (args "-1") no_files _ _ _ _ _
                         (surjective_pairing _) Hi eq_refl) _ Ht)).
Defined.

Lemma compress_goes_on_after_check_witness :
  trace (run_of good "-1").2 !! 3%nat
  = Some (Called (normalize (config_of (PyStr "se_a") (PyBool false) "-1" (-1)))
            (Ok (config_of (PyStr "se_a") (PyBool false) "-1" (-1))))
  ∧ ∃ ev', trace (run_of good "-1").2 !! 4%nat = Some ev'
           ∧ ev_call ev' = Some (log_info (nl +:+ nl)).
Proof.
  assert (trace (run_of good "-1").2 !! 3%nat
          = Some (Called (normalize (config_of (PyStr "se_a") (PyBool false) "-1" (-1)))
                    (Ok (config_of (PyStr "se_a") (PyBool false) "-1" (-1)))))
    as Hi by (vm_compute; reflexivity).
  assert (descriptor (config_of (PyStr "se_a") (PyBool false) "-1" (-1)) "type"
          = Ok (PyStr "se_a")) as Ht by (vm_compute; reflexivity).
  assert (descriptor (config_of (PyStr "se_a") (PyBool false) "-1" (-1))
            "resnet_dt" = Ok (PyBool false)) as Hr by (vm_compute; reflexivity).
  split; [exact Hi|].
  exact (compress_goes_on_after_check (env good) (args "-1") no_files _ _ _ _ _ _
           (surjective_pairing _) Hi eq_refl Ht (or_introl eq_refl) Hr).
Defined.
